(** * OctoPrint plugin subsystem: a shallow embedding

    This development embeds parts of [octoprint/plugin/__init__.py]
    ([plugin_manager], [call_plugin], [PluginSettings]) and of
    [octoprint/schema/printer/__init__.py] ([JobData.update]) and proves
    properties of them. *)

From Stdlib Require Import String List ZArith QArith Bool Lia.
Import ListNotations.
Open Scope string_scope.
Open Scope list_scope.
Set Warnings "-register-all".

(** ** Python values *)

(** The Python values that flow through the plugin settings API: [None],
    booleans, integers, floats (as rationals), strings, lists, dicts with string keys (kept in
    insertion order, as Python dicts are) and opaque objects such as
    callables, named by an object id. *)
Inductive Value : Type :=
| VNone
| VBool (b : bool)
| VInt (z : Z)
| VFloat (q : Q)
| VStr (s : string)
| VList (l : list Value)
| VDict (d : list (string * Value))
| VObj (id : nat).

Definition dict := list (string * Value).

(** [k in d] *)
Fixpoint dict_mem (d : dict) (k : string) : bool :=
  match d with
  | [] => false
  | (k', _) :: d' => String.eqb k k' || dict_mem d' k
  end.

(** [d.get(k)] *)
Fixpoint dict_lookup (d : dict) (k : string) : option Value :=
  match d with
  | [] => None
  | (k', v) :: d' => if String.eqb k k' then Some v else dict_lookup d' k
  end.

(** [d[k] = v]: an existing key keeps its position, a new key is appended. *)
Fixpoint dict_set (d : dict) (k : string) (v : Value) : dict :=
  match d with
  | [] => [(k, v)]
  | (k', v') :: d' =>
      if String.eqb k k' then (k', v) :: d' else (k', v') :: dict_set d' k v
  end.

(** [d.update(k=v)] on a keyword-argument dict is [d[k] = v]. *)
Definition dict_update := dict_set.

(** [d.get(k, default)] *)
Definition dict_get (d : dict) (k : string) (default : Value) : Value :=
  match dict_lookup d k with Some v => v | None => default end.

(** [os.path.join(a, b)] on POSIX: an absolute [b] replaces [a]; otherwise
    a separator is inserted unless [a] is empty or already ends in one. *)
Definition os_path_join (a b : string) : string :=
  if String.prefix "/" b then b
  else if String.eqb a "" then b
  else if String.eqb (substring (String.length a - 1) 1 a) "/" then (a ++ b)%string
  else (a ++ "/" ++ b)%string.

(** Python exceptions raised by the code embedded here. *)
Inductive py_error : Type :=
| TypeError
| IndexError
| ValueError (msg : string).

Inductive result (A : Type) : Type :=
| Ok (a : A)
| Err (e : py_error).
Arguments Ok {A} a.
Arguments Err {A} e.

(** ** The plugin manager singleton ([plugin_manager]) *)

Module Registry.

(** Plugin validators: the module's own [_validate_plugin] or one supplied
    by the caller (named by an object id). *)
Inductive validator : Type :=
| validate_plugin
| user_validator (id : nat).

(** The keyword arguments of [plugin_manager]; [None] stands for an argument
    left at its default [None]. Hook names and identifiers are strings. *)
Record pm_args : Type := mk_pm_args {
  plugin_folders : option (list string);
  plugin_bases : option (list string);
  plugin_entry_points : option (list string);
  plugin_disabled_list : option (list string);
  plugin_sorting_order : option Value;
  plugin_blacklist : option (list string);
  plugin_restart_needing_hooks : option (list string);
  plugin_obsolete_hooks : option (list string);
  plugin_considered_bundled : option (list string);
  plugin_validators : option (list validator);
  compatibility_ignored_list : option (list string)
}.

(** A [PluginManager] instance. Its class lives in [octoprint.plugin.core];
    an instance is represented here by the arguments [plugin_manager]
    constructs it from. *)
Record PluginManager : Type := mk_PluginManager {
  pm_plugin_folders : option (list string);
  pm_plugin_bases : list string;
  pm_plugin_entry_points : option (list string);
  pm_logging_prefix : string;
  pm_plugin_disabled_list : option (list string);
  pm_plugin_sorting_order : option Value;
  pm_plugin_blacklist : option (list string);
  pm_plugin_restart_needing_hooks : list string;
  pm_plugin_obsolete_hooks : list string;
  pm_plugin_considered_bundled : list string;
  pm_plugin_validators : list validator;
  pm_compatibility_ignored_list : option (list string)
}.

(** The module global [_instance]. *)
Definition state := option PluginManager.

Definition default_or {A} (o : option A) (d : A) : A :=
  match o with Some a => a | None => d end.

Definition construct (a : pm_args) : PluginManager :=
  mk_PluginManager
    (plugin_folders a)
    (default_or (plugin_bases a) ["OctoPrintPlugin"])
    (plugin_entry_points a)
    "octoprint.plugins."
    (plugin_disabled_list a)
    (plugin_sorting_order a)
    (plugin_blacklist a)
    (default_or (plugin_restart_needing_hooks a)
       ["octoprint.server.http.*"; "octoprint.printer.factory";
        "octoprint.access.permissions"; "octoprint.timelapse.extensions"])
    (default_or (plugin_obsolete_hooks a) ["octoprint.comm.protocol.gcode"])
    (default_or (plugin_considered_bundled a)
       ["firmware_check"; "file_check"; "pi_support"])
    (match plugin_validators a with
     | None => [validate_plugin]
     | Some vs => vs ++ [validate_plugin]
     end)
    (compatibility_ignored_list a).

(** [plugin_manager(init, ...)]: the new value of [_instance] and the
    returned instance or the raised error. *)
Definition plugin_manager (st : state) (init : bool) (a : pm_args)
  : state * result PluginManager :=
  match st with
  | Some inst =>
      if init then (st, Err (ValueError "Plugin Manager already initialized"))
      else (st, Ok inst)
  | None =>
      if init then
        let inst := construct a in (Some inst, Ok inst)
      else (st, Err (ValueError "Plugin Manager not initialized yet"))
  end.

(** A sequence of calls [plugin_manager(init, ...)] from a given state. *)
Fixpoint run (st : state) (calls : list (bool * pm_args))
  : state * list (result PluginManager) :=
  match calls with
  | [] => (st, [])
  | (init, a) :: calls' =>
      let (st1, r) := plugin_manager st init a in
      let (st2, rs) := run st1 calls' in
      (st2, r :: rs)
  end.

End Registry.

(** ** Plugin dispatch ([call_plugin]) *)

Module Dispatch.

(** A raised Python exception: an object id and whether its class derives
    from [Exception] (the class [except Exception] catches) or only from
    [BaseException] (as [KeyboardInterrupt] and [SystemExit] do). *)
Record exn : Type := mk_exn {
  exn_id : nat;
  exn_is_exception : bool
}.

(** Calling a function either returns a value or raises. *)
Inductive outcome : Type :=
| Returns (v : Value)
| Raises (e : exn).

(** A plugin implementation instance as [call_plugin] sees it: its object
    id, its [_identifier] attribute ([None] when the attribute is absent)
    and its attributes by name ([None] when [hasattr] is false); a present
    method, called with [*args] and [**kwargs], returns or raises. *)
Record plugin : Type := mk_plugin {
  pl_obj : nat;
  pl_identifier : option string;
  pl_attr : string -> option (list Value -> dict -> outcome)
}.

(** [callback(name, plugin, result)] and
    [error_callback(name, plugin, exc)]: [None] when the call returns,
    [Some e] when it raises [e]. *)
Definition callback_fn := string -> plugin -> Value -> option exn.
Definition error_callback_fn := string -> plugin -> exn -> option exn.

(** Observable effects of the dispatch loop, in order. *)
Inductive event : Type :=
| EvInvoke (name : string) (obj : nat)
| EvCallback (name : string) (obj : nat) (res : Value)
| EvLogException (name : string)
| EvErrorCallback (name : string) (obj : nat) (e : exn).

Section CallPlugin.

Variable method : string.
Variable args : list Value.
Variable kwargs : dict.
Variable callback : option callback_fn.
Variable error_callback : option error_callback_fn.

(** The [except Exception as exc:] handler of the loop body. *)
Definition handle (name : string) (p : plugin) (e : exn)
  : list event * option exn :=
  if exn_is_exception e then
    match error_callback with
    | None => ([EvLogException name], None)
    | Some ecb =>
        ([EvLogException name; EvErrorCallback name (pl_obj p) e],
         ecb name p e)
    end
  else ([], Some e).

(** One iteration of [for plugin in plugins:]; the second component is the
    exception leaving the iteration, if any. *)
Definition call_one (p : plugin) : list event * option exn :=
  match pl_identifier p with
  | None => ([], None)
  | Some name =>
      match pl_attr p method with
      | None => ([], None)
      | Some f =>
          match f args kwargs with
          | Raises e =>
              let (evs, r) := handle name p e in (EvInvoke name (pl_obj p) :: evs, r)
          | Returns res =>
              match callback with
              | None => ([EvInvoke name (pl_obj p)], None)
              | Some cb =>
                  match cb name p res with
                  | None =>
                      ([EvInvoke name (pl_obj p); EvCallback name (pl_obj p) res], None)
                  | Some e =>
                      let (evs, r) := handle name p e in
                      (EvInvoke name (pl_obj p) :: EvCallback name (pl_obj p) res :: evs, r)
                  end
              end
          end
      end
  end.

(** The loop over [manager.get_implementations]: the list of
    instances it returns is the input here. An exception leaving an
    iteration leaves [call_plugin]. *)
Fixpoint call_plugin (plugins : list plugin) : list event * option exn :=
  match plugins with
  | [] => ([], None)
  | p :: ps =>
      let (evs, r) := call_one p in
      match r with
      | Some e => (evs, Some e)
      | None => let (evs', r') := call_plugin ps in (evs ++ evs', r')
      end
  end.

End CallPlugin.

(** The instances invoked, in the order of the [EvInvoke] events. *)
Fixpoint invoked (evs : list event) : list (string * nat) :=
  match evs with
  | [] => []
  | EvInvoke n o :: evs' => (n, o) :: invoked evs'
  | _ :: evs' => invoked evs'
  end.

(** The calls [error_callback(name, plugin, exc)], in order. *)
Fixpoint error_callback_calls (evs : list event) : list (string * nat * exn) :=
  match evs with
  | [] => []
  | EvErrorCallback n o e :: evs' => (n, o, e) :: error_callback_calls evs'
  | _ :: evs' => error_callback_calls evs'
  end.

(** The instances of a list that have an [_identifier] and expose
    [method], in order. *)
Fixpoint qualifying (method : string) (plugins : list plugin)
  : list (string * nat) :=
  match plugins with
  | [] => []
  | p :: ps =>
      match pl_identifier p, pl_attr p method with
      | Some n, Some _ => (n, pl_obj p) :: qualifying method ps
      | _, _ => qualifying method ps
      end
  end.

(** Sample instances and callbacks: plugins ["a"], ["b"], ["c"] exposing
    [on_event]; ["b"]'s raises the [Exception] [boom]. *)
Definition boom : exn := mk_exn 100 true.

Definition sample_plugin (obj : nat) (name : string)
    (m : list Value -> dict -> outcome) : plugin :=
  mk_plugin obj (Some name)
    (fun attr => if String.eqb attr "on_event" then Some m else None).

Definition plugin_a : plugin := sample_plugin 1 "a" (fun _ _ => Returns VNone).
Definition plugin_b : plugin := sample_plugin 2 "b" (fun _ _ => Raises boom).
Definition plugin_c : plugin := sample_plugin 3 "c" (fun _ _ => Returns VNone).

Definition callback_raising : callback_fn := fun _ _ _ => Some boom.
Definition error_callback_quiet : error_callback_fn := fun _ _ _ => None.
Definition error_callback_reraising : error_callback_fn := fun _ _ e => Some e.

End Dispatch.

(** ** Printer job data ([JobData.update]) *)

Module Printer.

Record FileInfo : Type := mk_FileInfo {
  fi_name : option string;
  fi_path : option string;
  fi_size : option Z;
  fi_origin : option string;
  fi_date : option Z
}.

Record FilamentInfo : Type := mk_FilamentInfo {
  fa_length : option Q;
  fa_volume : option Q
}.

(** The pydantic model [JobData]; a field holding [None] is [None]. *)
Record JobData : Type := mk_JobData {
  file : option FileInfo;
  estimatedPrintTime : option Q;
  lastPrintTime : option Q;
  filament : option FilamentInfo;
  user : option string
}.

(** The argument [other] of [update]: a [JobData] instance or any other
    Python object. *)
Inductive update_arg : Type :=
| ArgJobData (j : JobData)
| ArgOther (v : Value).

Definition replace_if_set {A} (mine theirs : option A) : option A :=
  match theirs with Some _ => theirs | None => mine end.

(** [self.update(other)]: the new value of [self]. *)
Definition update (self : JobData) (other : update_arg) : JobData :=
  match other with
  | ArgOther _ => self
  | ArgJobData o =>
      let self := mk_JobData (replace_if_set (file self) (file o))
                    (estimatedPrintTime self) (lastPrintTime self)
                    (filament self) (user self) in
      let self := mk_JobData (file self)
                    (replace_if_set (estimatedPrintTime self) (estimatedPrintTime o))
                    (lastPrintTime self) (filament self) (user self) in
      let self := mk_JobData (file self) (estimatedPrintTime self)
                    (replace_if_set (lastPrintTime self) (lastPrintTime o))
                    (filament self) (user self) in
      let self := mk_JobData (file self) (estimatedPrintTime self)
                    (lastPrintTime self)
                    (replace_if_set (filament self) (filament o)) (user self) in
      mk_JobData (file self) (estimatedPrintTime self) (lastPrintTime self)
        (filament self) (replace_if_set (user self) (user o))
  end.

Record StateFlags : Type := mk_StateFlags {
  operational : bool; printing : bool; cancelling : bool; pausing : bool;
  resuming : bool; finishing : bool; closedOrError : bool; error : bool;
  paused : bool; ready : bool; sdReady : bool
}.

Record PrinterState : Type := mk_PrinterState {
  text : option string;
  flags : StateFlags;
  state_error : option string
}.

Record JobProgress : Type := mk_JobProgress {
  completion : option Q;
  filepos : option Q;
  printTime : option Q;
  printTimeLeft : option Q;
  printTimeLeftOrigin : option string
}.

Record ResendInfo : Type := mk_ResendInfo {
  count : Z;
  transmitted : Z;
  ratio : Q
}.

Record CurrentData : Type := mk_CurrentData {
  state : PrinterState;
  job : JobData;
  currentZ : Q;
  progress : JobProgress;
  offsets : list (string * Q);
  resends : ResendInfo
}.

(** The instances the models' constructors build without arguments, from
    the class-level field defaults. *)
Definition StateFlags_default : StateFlags :=
  mk_StateFlags false false false false false false false false false false false.
Definition PrinterState_default : PrinterState :=
  mk_PrinterState None StateFlags_default None.
Definition JobData_default : JobData := mk_JobData None None None None None.
Definition JobProgress_default : JobProgress :=
  mk_JobProgress None None None None None.
Definition ResendInfo_default : ResendInfo := mk_ResendInfo 0 0 0.
Definition CurrentData_default : CurrentData :=
  mk_CurrentData PrinterState_default JobData_default 0 JobProgress_default []
    ResendInfo_default.

(** [self.reset(state)]: the new value of [self]. *)
Definition reset (self : CurrentData) (state : option PrinterState) : CurrentData :=
  let state := match state with None => PrinterState_default | Some s => s end in
  mk_CurrentData state JobData_default 0 JobProgress_default [] ResendInfo_default.

End Printer.

(** ** Scoped plugin settings ([PluginSettings]) *)

Module Settings.

(** The calls a [PluginSettings] method makes on its [Settings] instance
    ([self.settings]): the Store method, its positional arguments and its
    keyword arguments. *)
Inductive getter : Type := MHas | MGet | MGetInt | MGetFloat | MGetBoolean.
Inductive setter : Type := MSet | MSetInt | MSetFloat | MSetBoolean.

Inductive store_call : Type :=
| CallGet (m : getter) (path : list string) (kw : dict)
| CallSet (m : setter) (path : list string) (value : Value) (kw : dict)
| CallRemove (path : list string) (kw : dict)
| CallAddOverlay (overlay : Value) (kw : dict)
| CallRemoveOverlay (key : Value).

(** The path argument of a call, where it has one. *)
Definition call_path (c : store_call) : option (list string) :=
  match c with
  | CallGet _ p _ | CallSet _ p _ _ | CallRemove p _ => Some p
  | _ => None
  end.

(** The keyword arguments of a call, where it has them. *)
Definition call_kwargs (c : store_call) : option dict :=
  match c with
  | CallGet _ _ kw | CallSet _ _ _ kw | CallRemove _ kw | CallAddOverlay _ kw =>
      Some kw
  | CallRemoveOverlay _ => None
  end.

(** The attributes of a [PluginSettings] instance besides [settings]. *)
Record PluginSettings : Type := mk_PluginSettings {
  plugin_key : string;
  defaults : option Value;
  get_preprocessors : Value;
  set_preprocessors : Value
}.

(** [PluginSettings(settings, plugin_key, defaults, get_preprocessors,
    set_preprocessors)]. *)
Definition init (key : string) (dflts : option dict)
    (get_pre set_pre : option Value) : PluginSettings :=
  mk_PluginSettings key
    (match dflts with
     | None => None
     | Some d =>
         Some (VDict [("plugins",
                       VDict [(key, VDict (dict_set d "_config_version" VNone))])])
     end)
    (VDict [("plugins", VDict [(key, match get_pre with
                                     | None => VDict []
                                     | Some g => g end)])])
    (VDict [("plugins", VDict [(key, match set_pre with
                                     | None => VDict []
                                     | Some g => g end)])]).

Section Methods.

Variable self : PluginSettings.

Definition _prefix_path (path : option (list string)) : list string :=
  let path := match path with None => [] | Some p => p end in
  ["plugins"; plugin_key self] ++ path.

Definition _add_getter_kwargs (kwargs : dict) : dict :=
  let kwargs :=
    match defaults self with
    | Some d => if negb (dict_mem kwargs "defaults")
                then dict_update kwargs "defaults" d else kwargs
    | None => kwargs
    end in
  if negb (dict_mem kwargs "preprocessors")
  then dict_update kwargs "preprocessors" (get_preprocessors self)
  else kwargs.

Definition _add_setter_kwargs (kwargs : dict) : dict :=
  let kwargs :=
    match defaults self with
    | Some d => if negb (dict_mem kwargs "defaults")
                then dict_update kwargs "defaults" d else kwargs
    | None => kwargs
    end in
  if negb (dict_mem kwargs "preprocessors")
  then dict_update kwargs "preprocessors" (set_preprocessors self)
  else kwargs.

(** [list(args)]: lists, the keys of a dict and the characters of a string
    are iterated; other values raise [TypeError]. *)
Definition py_list (v : Value) : result (list Value) :=
  match v with
  | VList l => Ok l
  | VDict d => Ok (map (fun kv => VStr (fst kv)) d)
  | VStr s => Ok (map (fun c => VStr (String c EmptyString)) (list_ascii_of_string s))
  | _ => Err TypeError
  end.

Definition _wrap_overlay (args : Value) : result Value :=
  match py_list args with
  | Err e => Err e
  | Ok [] => Err IndexError
  | Ok (overlay :: rest) =>
      Ok (VList (VDict [("plugins", VDict [(plugin_key self, overlay)])] :: rest))
  end.

Definition has (path : list string) (kwargs : dict) : store_call :=
  CallGet MHas (_prefix_path (Some path)) (_add_getter_kwargs kwargs).
Definition get (path : list string) (kwargs : dict) : store_call :=
  CallGet MGet (_prefix_path (Some path)) (_add_getter_kwargs kwargs).
Definition get_int (path : list string) (kwargs : dict) : store_call :=
  CallGet MGetInt (_prefix_path (Some path)) (_add_getter_kwargs kwargs).
Definition get_float (path : list string) (kwargs : dict) : store_call :=
  CallGet MGetFloat (_prefix_path (Some path)) (_add_getter_kwargs kwargs).
Definition get_boolean (path : list string) (kwargs : dict) : store_call :=
  CallGet MGetBoolean (_prefix_path (Some path)) (_add_getter_kwargs kwargs).

Definition set (path : list string) (value : Value) (kwargs : dict) : store_call :=
  CallSet MSet (_prefix_path (Some path)) value (_add_setter_kwargs kwargs).
Definition set_int (path : list string) (value : Value) (kwargs : dict) : store_call :=
  CallSet MSetInt (_prefix_path (Some path)) value (_add_setter_kwargs kwargs).
Definition set_float (path : list string) (value : Value) (kwargs : dict) : store_call :=
  CallSet MSetFloat (_prefix_path (Some path)) value (_add_setter_kwargs kwargs).
Definition set_boolean (path : list string) (value : Value) (kwargs : dict) : store_call :=
  CallSet MSetBoolean (_prefix_path (Some path)) value (_add_setter_kwargs kwargs).

Definition remove (path : list string) (kwargs : dict) : store_call :=
  CallRemove (_prefix_path (Some path)) kwargs.

(** [add_overlay(overlay, **kwargs)] passes [self._wrap_overlay(overlay)]
    to the Store; the wrapping may raise before the Store is called. *)
Definition add_overlay (overlay : Value) (kwargs : dict) : result store_call :=
  match _wrap_overlay overlay with
  | Err e => Err e
  | Ok wrapped => Ok (CallAddOverlay wrapped kwargs)
  end.

Definition remove_overlay (key : Value) : store_call := CallRemoveOverlay key.

(** [get_plugin_logfile_path(postfix)]; [logs] is the value of
    [self.settings.getBaseFolder("logs")]. *)
Definition get_plugin_logfile_path (logs : string) (postfix : option string)
  : string :=
  let filename := ("plugin_" ++ plugin_key self)%string in
  let filename := match postfix with
                  | Some p => (filename ++ "_" ++ p)%string
                  | None => filename
                  end in
  let filename := (filename ++ ".log")%string in
  os_path_join logs filename.

Definition get_all_data (kwargs : dict) : store_call :=
  let merged := dict_get kwargs "merged" (VBool true) in
  let asdict := dict_get kwargs "asdict" (VBool true) in
  let dflts := dict_get kwargs "defaults"
                 (match defaults self with Some d => d | None => VNone end) in
  let preprocessors := dict_get kwargs "preprocessors" (get_preprocessors self) in
  let kwargs := dict_update kwargs "merged" merged in
  let kwargs := dict_update kwargs "asdict" asdict in
  let kwargs := dict_update kwargs "defaults" dflts in
  let kwargs := dict_update kwargs "preprocessors" preprocessors in
  CallGet MGet (_prefix_path None) kwargs.

Definition clean_all_data : store_call := CallRemove (_prefix_path None) [].

Definition global_has (path : list string) (kwargs : dict) : store_call :=
  CallGet MHas path kwargs.
Definition global_remove (path : list string) (kwargs : dict) : store_call :=
  CallRemove path kwargs.
Definition global_get (path : list string) (kwargs : dict) : store_call :=
  CallGet MGet path kwargs.
Definition global_get_int (path : list string) (kwargs : dict) : store_call :=
  CallGet MGetInt path kwargs.
Definition global_get_float (path : list string) (kwargs : dict) : store_call :=
  CallGet MGetFloat path kwargs.
Definition global_get_boolean (path : list string) (kwargs : dict) : store_call :=
  CallGet MGetBoolean path kwargs.
Definition global_set (path : list string) (value : Value) (kwargs : dict) : store_call :=
  CallSet MSet path value kwargs.
Definition global_set_int (path : list string) (value : Value) (kwargs : dict) : store_call :=
  CallSet MSetInt path value kwargs.
Definition global_set_float (path : list string) (value : Value) (kwargs : dict) : store_call :=
  CallSet MSetFloat path value kwargs.
Definition global_set_boolean (path : list string) (value : Value) (kwargs : dict) : store_call :=
  CallSet MSetBoolean path value kwargs.

End Methods.

End Settings.

(** ** The Settings Store

    Modelled from the spec: the Store class [octoprint.settings.Settings]
    is not part of the embedded sources; §4.3 and §6 of the spec describe
    it. The configuration is a tree of nested dicts addressed by paths of
    keys; a set stores the value at the path, creating missing dicts on the
    way, after applying the preprocessor found at exactly that path of the
    [preprocessors] keyword argument; the numeric setters convert the value
    and clamp it into [min]/[max] before storing it. A raw read returns the
    value stored at the path. *)

Module Store.
Import Settings.

(** A raw read of [path] in the tree. *)
Fixpoint tree_get (v : Value) (path : list string) : option Value :=
  match path with
  | [] => Some v
  | k :: p =>
      match v with
      | VDict d =>
          match dict_lookup d k with
          | Some c => tree_get c p
          | None => None
          end
      | _ => None
      end
  end.

(** Storing [x] at [path], creating missing dicts on the way. *)
Fixpoint tree_set (v : Value) (path : list string) (x : Value) : Value :=
  match path with
  | [] => x
  | k :: p =>
      let d := match v with VDict d => d | _ => [] end in
      let c := match dict_lookup d k with Some c => c | None => VDict [] end in
      VDict (dict_set d k (tree_set c p x))
  end.

Section Exec.

(** Calling the callable with the given object id on a value. *)
Variable call_fn : nat -> Value -> Value.

(** The preprocessor registered at exactly [path], if any. *)
Definition preprocessor_at (kw : dict) (path : list string) : option nat :=
  match dict_lookup kw "preprocessors" with
  | Some pre =>
      match tree_get pre path with
      | Some (VObj f) => Some f
      | _ => None
      end
  | None => None
  end.

Definition store_set (root : Value) (path : list string) (value : Value)
    (kw : dict) : Value :=
  let value := match preprocessor_at kw path with
               | Some f => call_fn f value
               | None => value
               end in
  tree_set root path value.

(** Conversion to [int]/[float] of the numeric setters; the spec leaves
    the failure of a setter conversion open, and nothing is stored then. *)
Definition to_int (v : Value) : option Z :=
  match v with
  | VInt z => Some z
  | VBool b => Some (if b then 1%Z else 0%Z)
  | _ => None
  end.

Definition to_float (v : Value) : option Q :=
  match v with
  | VFloat q => Some q
  | VInt z => Some (inject_Z z)
  | VBool b => Some (if b then 1%Q else 0%Q)
  | _ => None
  end.

Definition bound {A} (conv : Value -> option A) (kw : dict) (k : string)
  : option A :=
  match dict_lookup kw k with
  | Some v => conv v
  | None => None
  end.

(** "if the value to store is below [min], [min] is stored instead; if
    above [max], [max] is stored instead" *)
Definition clamp_Z (mn mx : option Z) (z : Z) : Z :=
  match mn, mx with
  | Some m, _ => if (z <? m)%Z then m else
                 match mx with Some x => if (x <? z)%Z then x else z | None => z end
  | None, Some x => if (x <? z)%Z then x else z
  | None, None => z
  end.

Definition clamp_Q (mn mx : option Q) (q : Q) : Q :=
  match mn, mx with
  | Some m, _ => if Qlt_le_dec q m then m else
                 match mx with Some x => if Qlt_le_dec x q then x else q | None => q end
  | None, Some x => if Qlt_le_dec x q then x else q
  | None, None => q
  end.

(** The new tree after a call; calls other than sets leave it unchanged. *)
Definition exec (root : Value) (c : store_call) : Value :=
  match c with
  | CallSet MSet path value kw => store_set root path value kw
  | CallSet MSetInt path value kw =>
      match to_int value with
      | Some z =>
          store_set root path
            (VInt (clamp_Z (bound to_int kw "min") (bound to_int kw "max") z)) kw
      | None => root
      end
  | CallSet MSetFloat path value kw =>
      match to_float value with
      | Some q =>
          store_set root path
            (VFloat (clamp_Q (bound to_float kw "min") (bound to_float kw "max") q)) kw
      | None => root
      end
  | CallSet MSetBoolean path value kw =>
      match value with
      | VBool b => store_set root path (VBool b) kw
      | _ => root
      end
  | _ => root
  end.

End Exec.

End Store.

(** ** Factories and the entry of [call_plugin] *)

Module Factories.
Import Settings Dispatch.




Section Factory.

(** What the call [s()] ([octoprint.settings.settings], not embedded
    here) returns or raises: it raises while the global settings are not
    initialized. *)
Variable s_call : outcome.



End Factory.

Section Entry.

(** The method [get_implementations] of the plugin manager, from
    [octoprint.plugin.core], which is not embedded here. *)
Variable get_implementations :
  Registry.PluginManager -> list Value -> option string -> list plugin.

(** [plugin_manager()]: every argument left at [None]. *)
Definition no_pm_args : Registry.pm_args :=
  Registry.mk_pm_args None None None None None None None None None None None.

(** [call_plugin(types, method, args, kwargs, callback, error_callback,
    sorting_context, initialized, manager)] with the singleton state [st]:
    the preparation of its arguments, then the loop. *)
Definition call_plugin_entry (st : Registry.state) (types : Value) (method : string)
    (args : option (list Value)) (kwargs : option dict)
    (callback : option callback_fn) (error_callback : option error_callback_fn)
    (sorting_context : option string) (manager : option Registry.PluginManager)
  : result (list event * option exn) :=
  let types := match types with VList l => l | t => [t] end in
  let args := match args with None => [] | Some a => a end in
  let kwargs := match kwargs with None => [] | Some k => k end in
  let manager :=
    match manager with
    | Some m => Ok m
    | None => snd (Registry.plugin_manager st false no_pm_args)
    end in
  match manager with
  | Err e => Err e
  | Ok m =>
      Ok (call_plugin method args kwargs callback error_callback
            (get_implementations m types sorting_context))
  end.

End Entry.

End Factories.

(** * Properties *)

(** ** Dicts and the Store tree *)

Lemma dict_lookup_set_same (d : dict) (k : string) (v : Value) :
  dict_lookup (dict_set d k v) k = Some v.
Proof.
  induction d as [|[k' v'] d IH]; simpl.
  - now rewrite String.eqb_refl.
  - destruct (String.eqb k k') eqn:E; simpl.
    + apply String.eqb_eq in E; subst. now rewrite String.eqb_refl.
    + now rewrite E.
Qed.

Lemma dict_lookup_set_other (d : dict) (k k' : string) (v : Value) :
  k <> k' -> dict_lookup (dict_set d k' v) k = dict_lookup d k.
Proof.
  intros Hne. induction d as [|[k0 v0] d IH]; simpl.
  - apply String.eqb_neq in Hne. now rewrite Hne.
  - destruct (String.eqb k' k0) eqn:E; simpl.
    + apply String.eqb_eq in E; subst.
      apply String.eqb_neq in Hne. now rewrite Hne.
    + now rewrite IH.
Qed.

Lemma dict_mem_false_lookup (d : dict) (k : string) :
  dict_mem d k = false -> dict_lookup d k = None.
Proof.
  induction d as [|[k' v'] d IH]; simpl; auto.
  intros H. apply orb_false_iff in H as [H1 H2]. rewrite H1. auto.
Qed.

Lemma dict_mem_set (d : dict) (k k' : string) (v : Value) :
  dict_mem (dict_set d k' v) k = String.eqb k k' || dict_mem d k.
Proof.
  induction d as [|[k0 v0] d IH]; simpl.
  - now rewrite orb_false_r.
  - destruct (String.eqb k' k0) eqn:E; simpl.
    + apply String.eqb_eq in E; subst. now rewrite orb_assoc, orb_diag.
    + rewrite IH. now rewrite !orb_assoc, (orb_comm (String.eqb k k0)).
Qed.

Lemma tree_get_set_same (v : Value) (p : list string) (x : Value) :
  Store.tree_get (Store.tree_set v p x) p = Some x.
Proof.
  revert v. induction p as [|k p IH]; intros v; simpl; auto.
  now rewrite dict_lookup_set_same.
Qed.

(** ** C1: the singleton contract of [plugin_manager] *)

(** C1. [plugin_manager] raises [ValueError] on [init=True] once the
    singleton exists and on [init=False] before it exists; from the initial
    state, every sequence of calls fails with "not initialized" up to the
    first [init=True] call, which constructs the instance and returns it;
    from then on [init=False] calls return that same instance and
    [init=True] calls fail with "already initialized", the singleton
    staying unchanged. *)
Theorem plugin_manager_init_contract :
  (forall (pm : Registry.PluginManager) (a : Registry.pm_args),
      Registry.plugin_manager (Some pm) true a
      = (Some pm, Err (ValueError "Plugin Manager already initialized"))) /\
  (forall a : Registry.pm_args,
      Registry.plugin_manager None false a
      = (None, Err (ValueError "Plugin Manager not initialized yet"))) /\
  (forall (before : list Registry.pm_args),
      Registry.run None (map (fun a => (false, a)) before)
      = (None, map (fun _ : Registry.pm_args => Err (ValueError "Plugin Manager not initialized yet"))
                 before)) /\
  (forall (before : list Registry.pm_args) (a : Registry.pm_args)
          (after : list (bool * Registry.pm_args)),
      Registry.run None (map (fun a => (false, a)) before ++ (true, a) :: after)
      = (Some (Registry.construct a),
         map (fun _ : Registry.pm_args => Err (ValueError "Plugin Manager not initialized yet")) before
         ++ Ok (Registry.construct a)
         :: map (fun c : bool * Registry.pm_args => if fst c
                          then Err (ValueError "Plugin Manager already initialized")
                          else Ok (Registry.construct a)) after)).
Proof.
  assert (Hafter : forall pm after,
    Registry.run (Some pm) after
    = (Some pm, map (fun c : bool * Registry.pm_args => if fst c
                     then Err (ValueError "Plugin Manager already initialized")
                     else Ok pm) after)).
  { intros pm after. induction after as [|[init a] after IH]; auto.
    destruct init; simpl; now rewrite IH. }
  split; [|split; [|split]].
  - reflexivity.
  - reflexivity.
  - intros before. induction before as [|a before IH]; simpl; auto.
    now rewrite IH.
  - intros before a after. induction before as [|b before IH]; simpl.
    + now rewrite Hafter.
    + now rewrite IH.
Qed.

(** ** C10: [JobData.update] *)

(** C10. [update] with an argument that is not a [JobData] leaves [self]
    unchanged; with a [JobData] [o], each of [file], [estimatedPrintTime],
    [lastPrintTime], [filament] and [user] takes [o]'s value when that is
    not [None] and keeps its own value otherwise. *)
Theorem JobData_update_selective (j : Printer.JobData) :
  (forall v : Value, Printer.update j (Printer.ArgOther v) = j) /\
  (forall o : Printer.JobData,
      let j' := Printer.update j (Printer.ArgJobData o) in
      Printer.file j' = match Printer.file o with
                        | Some f => Some f | None => Printer.file j end /\
      Printer.estimatedPrintTime j' =
        match Printer.estimatedPrintTime o with
        | Some t => Some t | None => Printer.estimatedPrintTime j end /\
      Printer.lastPrintTime j' =
        match Printer.lastPrintTime o with
        | Some t => Some t | None => Printer.lastPrintTime j end /\
      Printer.filament j' = match Printer.filament o with
                            | Some f => Some f | None => Printer.filament j end /\
      Printer.user j' = match Printer.user o with
                        | Some u => Some u | None => Printer.user j end).
Proof.
  split; [reflexivity|].
  intros o. destruct j, o; simpl.
  unfold Printer.replace_if_set.
  repeat split; simpl;
    repeat match goal with |- context [match ?x with _ => _ end] => destruct x end;
    reflexivity.
Qed.

(** ** PluginSettings: scoping, kwargs injection, overlays *)

Section SettingsFacts.
Import Settings.

Lemma add_getter_kwargs_lookup (ps : PluginSettings) (kw : dict) :
  dict_lookup (_add_getter_kwargs ps kw) "defaults"
  = (if dict_mem kw "defaults" then dict_lookup kw "defaults" else defaults ps) /\
  dict_lookup (_add_getter_kwargs ps kw) "preprocessors"
  = (if dict_mem kw "preprocessors" then dict_lookup kw "preprocessors"
     else Some (get_preprocessors ps)).
Proof.
  unfold _add_getter_kwargs.
  destruct (defaults ps) as [d|] eqn:Ed;
    destruct (dict_mem kw "defaults") eqn:Md; simpl;
    try rewrite dict_mem_set; simpl;
    destruct (dict_mem kw "preprocessors") eqn:Mp; simpl;
    repeat first
      [ rewrite dict_lookup_set_same
      | rewrite dict_lookup_set_other by discriminate
      | rewrite dict_mem_false_lookup by assumption ];
    auto.
Qed.

Lemma add_setter_kwargs_lookup (ps : PluginSettings) (kw : dict) :
  dict_lookup (_add_setter_kwargs ps kw) "defaults"
  = (if dict_mem kw "defaults" then dict_lookup kw "defaults" else defaults ps) /\
  dict_lookup (_add_setter_kwargs ps kw) "preprocessors"
  = (if dict_mem kw "preprocessors" then dict_lookup kw "preprocessors"
     else Some (set_preprocessors ps)).
Proof.
  unfold _add_setter_kwargs.
  destruct (defaults ps) as [d|] eqn:Ed;
    destruct (dict_mem kw "defaults") eqn:Md; simpl;
    try rewrite dict_mem_set; simpl;
    destruct (dict_mem kw "preprocessors") eqn:Mp; simpl;
    repeat first
      [ rewrite dict_lookup_set_same
      | rewrite dict_lookup_set_other by discriminate
      | rewrite dict_mem_false_lookup by assumption ];
    auto.
Qed.

Lemma add_setter_kwargs_lookup_other (ps : PluginSettings) (kw : dict) (k : string) :
  k <> "defaults" -> k <> "preprocessors" ->
  dict_lookup (_add_setter_kwargs ps kw) k = dict_lookup kw k.
Proof.
  intros H1 H2. unfold _add_setter_kwargs.
  destruct (defaults ps); [destruct (dict_mem kw "defaults")|]; simpl;
    repeat match goal with
           | |- context [if ?b then _ else _] => destruct b
           end;
    repeat rewrite dict_lookup_set_other by assumption; auto.
Qed.

End SettingsFacts.

(** C5. The [global_*] methods call the Store method of the same name with
    the caller's path and keyword arguments exactly as given: no
    [["plugins", plugin_key]] prefix, and no defaults or preprocessors of
    the plugin added to the keyword arguments. *)
Theorem global_methods_unscoped (path : list string) (value : Value) (kw : dict) :
  Settings.global_has path kw = Settings.CallGet Settings.MHas path kw /\
  Settings.global_get path kw = Settings.CallGet Settings.MGet path kw /\
  Settings.global_get_int path kw = Settings.CallGet Settings.MGetInt path kw /\
  Settings.global_get_float path kw = Settings.CallGet Settings.MGetFloat path kw /\
  Settings.global_get_boolean path kw
    = Settings.CallGet Settings.MGetBoolean path kw /\
  Settings.global_set path value kw = Settings.CallSet Settings.MSet path value kw /\
  Settings.global_set_int path value kw
    = Settings.CallSet Settings.MSetInt path value kw /\
  Settings.global_set_float path value kw
    = Settings.CallSet Settings.MSetFloat path value kw /\
  Settings.global_set_boolean path value kw
    = Settings.CallSet Settings.MSetBoolean path value kw /\
  Settings.global_remove path kw = Settings.CallRemove path kw.
Proof.
  repeat split.
Qed.

(** C9. A [PluginSettings] built with a defaults dict [d] for [key] holds
    the defaults [{"plugins": {key: d}}] where [d] has gained the entry
    ["_config_version": None]; every scoped getter call ([has], [get],
    [get_int], [get_float], [get_boolean]) passes these defaults and the
    wrapped get preprocessors [{"plugins": {key: get_preprocessors}}], and
    every scoped setter call ([set], [set_int], [set_float],
    [set_boolean]) these defaults and the wrapped set preprocessors, each
    only when the caller's keyword arguments do not already contain
    ["defaults"] resp. ["preprocessors"], whose value then wins. *)
Theorem plugin_settings_kwargs_injection (key : string) (d : dict)
    (gp sp : option Value) (path : list string) (value : Value) (kw : dict) :
  let ps := Settings.init key (Some d) gp sp in
  let wrapped := VDict [("plugins",
                         VDict [(key, VDict (dict_set d "_config_version" VNone))])] in
  let gpre := VDict [("plugins", VDict [(key, match gp with
                                              | Some g => g | None => VDict [] end)])] in
  let spre := VDict [("plugins", VDict [(key, match sp with
                                              | Some g => g | None => VDict [] end)])] in
  let passed (pre : Value) (c : Settings.store_call) :=
    exists kw', Settings.call_kwargs c = Some kw' /\
      dict_lookup kw' "defaults"
      = (if dict_mem kw "defaults" then dict_lookup kw "defaults" else Some wrapped) /\
      dict_lookup kw' "preprocessors"
      = (if dict_mem kw "preprocessors" then dict_lookup kw "preprocessors"
         else Some pre) in
  Settings.defaults ps = Some wrapped /\
  Forall (passed gpre)
    [Settings.has ps path kw; Settings.get ps path kw; Settings.get_int ps path kw;
     Settings.get_float ps path kw; Settings.get_boolean ps path kw] /\
  Forall (passed spre)
    [Settings.set ps path value kw; Settings.set_int ps path value kw;
     Settings.set_float ps path value kw; Settings.set_boolean ps path value kw].
Proof.
  intros ps wrapped gpre spre passed.
  destruct (add_getter_kwargs_lookup ps kw) as [Gd Gp].
  destruct (add_setter_kwargs_lookup ps kw) as [Sd Sp].
  split; [reflexivity|split];
    repeat constructor; eexists; (split; [reflexivity|]); auto.
Qed.

(** C4. Every scoped method ([has], [get], [get_int], [get_float],
    [get_boolean], [set], [set_int], [set_float], [set_boolean],
    [remove]) calls the Store with the path [["plugins", plugin_key] + P]
    for the caller's path [P]; and with the Store as the spec describes it,
    [PluginSettings(settings, k).set(P, v)] followed by a raw read of
    [["plugins", k] + P] yields [v]. *)
Theorem scoped_paths_and_set_read (ps : Settings.PluginSettings)
    (path : list string) (value : Value) (kw : dict) :
  Forall (fun c => Settings.call_path c
                   = Some (["plugins"; Settings.plugin_key ps] ++ path))
    [Settings.has ps path kw; Settings.get ps path kw; Settings.get_int ps path kw;
     Settings.get_float ps path kw; Settings.get_boolean ps path kw;
     Settings.set ps path value kw; Settings.set_int ps path value kw;
     Settings.set_float ps path value kw; Settings.set_boolean ps path value kw;
     Settings.remove ps path kw] /\
  (forall (call_fn : nat -> Value -> Value) (root : Value) (key : string)
          (d : option dict) (gp : option Value),
      Store.tree_get
        (Store.exec call_fn root
           (Settings.set (Settings.init key d gp None) path value []))
        (["plugins"; key] ++ path)
      = Some value).
Proof.
  split.
  - repeat constructor.
  - intros call_fn root key d gp.
    simpl Store.exec. unfold Store.store_set, Store.preprocessor_at.
    destruct (add_setter_kwargs_lookup (Settings.init key d gp None) []) as [_ Hp].
    simpl in Hp. unfold Settings._prefix_path. simpl Settings.plugin_key.
    rewrite Hp, tree_get_set_same. simpl. rewrite String.eqb_refl.
    destruct path; reflexivity.
Qed.

(** C6. [add_overlay] hands [_wrap_overlay(overlay)] to the Store, and
    [_wrap_overlay] iterates its argument with [list(...)]: for the overlay
    [{"x": 2}] of plugin ["foo"] the Store receives the list
    [[{"plugins": {"foo": "x"}}]] (the overlay's first key wrapped), not
    [{"plugins": {"foo": {"x": 2}}}]; an empty overlay raises
    [IndexError]. *)
Theorem add_overlay_wraps_first_key :
  let ps := Settings.init "foo" None None None in
  Settings.add_overlay ps (VDict [("x", VInt 2)]) []
  = Ok (Settings.CallAddOverlay
          (VList [VDict [("plugins", VDict [("foo", VStr "x")])]]) []) /\
  Settings.add_overlay ps (VDict [("x", VInt 2)]) []
  <> Ok (Settings.CallAddOverlay
           (VDict [("plugins", VDict [("foo", VDict [("x", VInt 2)])])]) []) /\
  Settings.add_overlay ps (VDict []) [] = Err IndexError.
Proof.
  intros ps. split; [reflexivity|split; [discriminate|reflexivity]].
Qed.

(** ** Dispatch *)

Section DispatchFacts.
Import Dispatch.

Variable method : string.
Variable args : list Value.
Variable kwargs : dict.
Variable callback : option callback_fn.
Variable error_callback : option error_callback_fn.

Local Abbreviation run := (call_plugin method args kwargs callback error_callback).

Lemma call_plugin_app (l1 l2 : list plugin) :
  run (l1 ++ l2)
  = match run l1 with
    | (evs, Some e) => (evs, Some e)
    | (evs, None) => let (evs', r') := run l2 in (evs ++ evs', r')
    end.
Proof.
  induction l1 as [|p l1 IH]; simpl.
  - now destruct (run l2).
  - destruct (call_one method args kwargs callback error_callback p) as [evs [e|]]; auto.
    rewrite IH. destruct (run l1) as [evs1 [e|]]; auto.
    destruct (run l2). now rewrite app_assoc.
Qed.

Lemma invoked_app (e1 e2 : list event) :
  invoked (e1 ++ e2) = invoked e1 ++ invoked e2.
Proof.
  induction e1 as [|[] e1 IH]; simpl; auto; now rewrite IH.
Qed.

(** Exceptions raised by the method of [p] or by the success callback on
    [p] are instances of [Exception]. *)
Definition raises_exceptions_only (p : plugin) : Prop :=
  forall g, pl_attr p method = Some g ->
    (forall x, g args kwargs = Raises x -> exn_is_exception x = true) /\
    (forall cb n r x, callback = Some cb -> cb n p r = Some x ->
                      exn_is_exception x = true).

(** [error_callback] returns normally whenever it is called. *)
Definition error_callback_returns : Prop :=
  forall ecb, error_callback = Some ecb -> forall n q x, ecb n q x = None.

Lemma handle_no_abort (n : string) (p : plugin) (x : exn) :
  error_callback_returns -> exn_is_exception x = true ->
  snd (handle error_callback n p x) = None /\ invoked (fst (handle error_callback n p x)) = [].
Proof.
  intros Hecb Hx. unfold handle. rewrite Hx.
  destruct error_callback as [ecb|] eqn:E; simpl; [rewrite (Hecb ecb E)|]; auto.
Qed.

Lemma call_one_no_abort (p : plugin) :
  error_callback_returns -> raises_exceptions_only p ->
  snd (call_one method args kwargs callback error_callback p) = None /\
  invoked (fst (call_one method args kwargs callback error_callback p))
  = qualifying method [p].
Proof.
  intros Hecb Hp. unfold call_one; simpl.
  destruct (pl_identifier p) as [n|]; auto.
  destruct (pl_attr p method) as [g|] eqn:Eg; auto.
  destruct (Hp g Eg) as [Hm Hc].
  destruct (g args kwargs) as [res|x] eqn:Ex.
  - destruct callback as [cb|] eqn:Ecb; simpl; auto.
    destruct (cb n p res) as [x|] eqn:Ecx; simpl; auto.
    destruct (handle_no_abort n p x Hecb (Hc cb n res x eq_refl Ecx)) as [H1 H2].
    destruct (handle error_callback n p x); simpl in *. now rewrite H1, H2.
  - destruct (handle_no_abort n p x Hecb (Hm x eq_refl)) as [H1 H2].
    destruct (handle error_callback n p x); simpl in *. now rewrite H1, H2.
Qed.

Lemma call_plugin_no_abort (l : list plugin) :
  error_callback_returns -> Forall raises_exceptions_only l ->
  snd (run l) = None /\ invoked (fst (run l)) = qualifying method l.
Proof.
  intros Hecb Hl. induction Hl as [|p l Hp Hl IH]; simpl; auto.
  destruct (call_one_no_abort p Hecb Hp) as [H1 H2].
  destruct (call_one method args kwargs callback error_callback p) as [evs r].
  simpl in H1, H2. subst r.
  destruct (run l) as [evs' r']. simpl in *. destruct IH as [-> IH].
  split; auto. rewrite invoked_app, H2, IH. simpl.
  now destruct (pl_identifier p), (pl_attr p method).
Qed.

End DispatchFacts.

(** C7. An instance without an [_identifier] attribute, or without the
    named method, is skipped: dispatching over a sequence containing it
    has exactly the effects and the outcome of dispatching over the
    sequence without it (no invocation, no callback, nothing raised). *)
Theorem call_plugin_skips_unusable (method : string) (args : list Value)
    (kwargs : dict) (callback : option Dispatch.callback_fn)
    (error_callback : option Dispatch.error_callback_fn)
    (before after : list Dispatch.plugin) (p : Dispatch.plugin)
    (Hskip : Dispatch.pl_identifier p = None \/ Dispatch.pl_attr p method = None) :
  Dispatch.call_plugin method args kwargs callback error_callback (before ++ p :: after)
  = Dispatch.call_plugin method args kwargs callback error_callback (before ++ after).
Proof.
  rewrite !call_plugin_app.
  assert (Hone : Dispatch.call_one method args kwargs callback error_callback p = ([], None)).
  { unfold Dispatch.call_one.
    destruct Hskip as [H|H]; rewrite H; auto.
    now destruct (Dispatch.pl_identifier p). }
  simpl. rewrite Hone.
  destruct (Dispatch.call_plugin method args kwargs callback error_callback before)
    as [evs [x|]]; auto.
  now destruct (Dispatch.call_plugin method args kwargs callback error_callback after).
Qed.

(** C2 (counterexample). With plugins ["a"], ["b"], ["c"] where ["b"]
    raises and [error_callback] re-raises the exception it receives, the
    exception leaves [call_plugin] and ["c"] is never invoked. *)
Lemma call_plugin_error_callback_raise_aborts :
  Dispatch.call_plugin "on_event" [] [] None (Some Dispatch.error_callback_reraising)
    [Dispatch.plugin_a; Dispatch.plugin_b; Dispatch.plugin_c]
  = ([Dispatch.EvInvoke "a" 1; Dispatch.EvInvoke "b" 2; Dispatch.EvLogException "b";
      Dispatch.EvErrorCallback "b" 2 Dispatch.boom], Some Dispatch.boom) /\
  ~ In ("c", 3%nat) (Dispatch.invoked
       (fst (Dispatch.call_plugin "on_event" [] [] None
               (Some Dispatch.error_callback_reraising)
               [Dispatch.plugin_a; Dispatch.plugin_b; Dispatch.plugin_c]))).
Proof.
  split; [reflexivity|].
  simpl. intros [H|[H|[]]]; discriminate.
Qed.

(** C2 (amended). Let the method of a qualifying instance [p] raise [e],
    and let every exception raised by a method or by the success callback
    be an [Exception].
    - If [error_callback] returns normally, dispatch completes without
      raising; the effects are those of the instances before [p], then
      [p]'s invocation, the logged failure and
      [error_callback(identifier, p, e)] (when given), then those of the
      instances after [p], among which every qualifying instance is
      invoked, in order.
    - If dispatch reaches [p] and [error_callback(identifier, p, e)]
      raises [x], then [x] leaves [call_plugin] right after that call:
      no instance after [p] is invoked.
    - If [error_callback] returns normally, then for three qualifying
      instances [p1], [p], [p3] where the methods of [p1] and [p3] return
      and the success callback, if any, returns on them, all three are
      invoked in order and [error_callback] is called once, for [p] with
      [e]. *)
Theorem call_plugin_fault_isolation (method : string) (args : list Value)
    (kwargs : dict) (callback : option Dispatch.callback_fn)
    (error_callback : option Dispatch.error_callback_fn)
    (before after : list Dispatch.plugin) (p : Dispatch.plugin) (name : string)
    (f : list Value -> dict -> Dispatch.outcome) (e : Dispatch.exn)
    (Hexc : Forall (raises_exceptions_only method args kwargs callback)
              (before ++ p :: after))
    (Hid : Dispatch.pl_identifier p = Some name)
    (Hf : Dispatch.pl_attr p method = Some f)
    (Hraise : f args kwargs = Dispatch.Raises e) :
  let run := Dispatch.call_plugin method args kwargs callback error_callback in
  (error_callback_returns error_callback ->
   snd (run (before ++ p :: after)) = None /\
   fst (run (before ++ p :: after))
   = fst (run before)
     ++ (Dispatch.EvInvoke name (Dispatch.pl_obj p) :: Dispatch.EvLogException name
         :: match error_callback with
            | Some _ => [Dispatch.EvErrorCallback name (Dispatch.pl_obj p) e]
            | None => []
            end)
     ++ fst (run after) /\
   Dispatch.invoked (fst (run after)) = Dispatch.qualifying method after) /\
  (forall ecb x, error_callback = Some ecb -> snd (run before) = None ->
   ecb name p e = Some x ->
   run (before ++ p :: after)
   = (fst (run before)
      ++ [Dispatch.EvInvoke name (Dispatch.pl_obj p); Dispatch.EvLogException name;
          Dispatch.EvErrorCallback name (Dispatch.pl_obj p) e], Some x)) /\
  (error_callback_returns error_callback ->
   forall p1 n1 g1 r1 p3 n3 g3 r3,
   Dispatch.pl_identifier p1 = Some n1 -> Dispatch.pl_attr p1 method = Some g1 ->
   g1 args kwargs = Dispatch.Returns r1 ->
   Dispatch.pl_identifier p3 = Some n3 -> Dispatch.pl_attr p3 method = Some g3 ->
   g3 args kwargs = Dispatch.Returns r3 ->
   (forall cb, callback = Some cb -> cb n1 p1 r1 = None /\ cb n3 p3 r3 = None) ->
   snd (run [p1; p; p3]) = None /\
   Dispatch.invoked (fst (run [p1; p; p3]))
   = [(n1, Dispatch.pl_obj p1); (name, Dispatch.pl_obj p); (n3, Dispatch.pl_obj p3)] /\
   Dispatch.error_callback_calls (fst (run [p1; p; p3]))
   = match error_callback with
     | Some _ => [(name, Dispatch.pl_obj p, e)]
     | None => []
     end).
Proof.
  intros run.
  apply Forall_app in Hexc as [Hbefore Hrest].
  inversion Hrest as [|? ? Hp Hafter]; subst.
  destruct (Hp f Hf) as [Hm _].
  pose proof (Hm e Hraise) as He.
  split; [|split].
  - intros Hecb.
    destruct (call_plugin_no_abort method args kwargs callback error_callback
                before Hecb Hbefore) as [Hb _].
    destruct (call_plugin_no_abort method args kwargs callback error_callback
                after Hecb Hafter) as [Ha Hia].
    unfold run. rewrite call_plugin_app.
    destruct (Dispatch.call_plugin method args kwargs callback error_callback before)
      as [evb rb] eqn:Eb. simpl in Hb. subst rb.
    simpl. unfold Dispatch.call_one. rewrite Hid, Hf, Hraise.
    unfold Dispatch.handle. rewrite He.
    destruct error_callback as [ecb|] eqn:Eecb.
    + rewrite (Hecb ecb eq_refl). simpl.
      destruct (Dispatch.call_plugin method args kwargs callback (Some ecb) after)
        as [eva ra] eqn:Ea. simpl in *. subst ra. auto.
    + simpl.
      destruct (Dispatch.call_plugin method args kwargs callback None after)
        as [eva ra] eqn:Ea. simpl in *. subst ra. auto.
  - intros ecb x Eecb Hb Hx. subst error_callback.
    unfold run in *. rewrite call_plugin_app.
    destruct (Dispatch.call_plugin method args kwargs callback (Some ecb) before)
      as [evb rb] eqn:Eb. simpl in Hb. subst rb.
    simpl. unfold Dispatch.call_one. rewrite Hid, Hf, Hraise.
    unfold Dispatch.handle. rewrite He, Hx. reflexivity.
  - intros Hecb p1 n1 g1 r1 p3 n3 g3 r3 Hid1 Hf1 Hr1 Hid3 Hf3 Hr3 Hcb.
    unfold run. simpl. unfold Dispatch.call_one.
    rewrite Hid1, Hf1, Hr1, Hid, Hf, Hraise, Hid3, Hf3, Hr3.
    unfold Dispatch.handle. rewrite He.
    destruct callback as [cb|];
      [destruct (Hcb cb eq_refl) as [Hc1 Hc3]; rewrite Hc1, Hc3|];
      (destruct error_callback as [ecb|] eqn:Eecb;
       [rewrite (Hecb ecb eq_refl)|]); simpl; auto.
Qed.

(** C3 (counterexample). A success callback raising the [Exception]
    [boom] on every plugin does not abort dispatch: each failure is
    logged and routed to [error_callback], both plugins are invoked and
    [call_plugin] returns normally. *)
Lemma call_plugin_callback_exception_caught :
  Dispatch.call_plugin "on_event" [] [] (Some Dispatch.callback_raising)
    (Some Dispatch.error_callback_quiet) [Dispatch.plugin_a; Dispatch.plugin_c]
  = ([Dispatch.EvInvoke "a" 1; Dispatch.EvCallback "a" 1 VNone;
      Dispatch.EvLogException "a"; Dispatch.EvErrorCallback "a" 1 Dispatch.boom;
      Dispatch.EvInvoke "c" 3; Dispatch.EvCallback "c" 3 VNone;
      Dispatch.EvLogException "c"; Dispatch.EvErrorCallback "c" 3 Dispatch.boom],
     None).
Proof. reflexivity. Qed.

(** C3 (amended). When the success callback raises [e] after the method
    of a qualifying instance [p] returned: if [e] is an [Exception] it is
    handled like a failure of the method (logged, passed to
    [error_callback(identifier, p, e)] when given) and dispatch goes on
    with the remaining instances, unless [error_callback] itself raises;
    only an exception that is not an [Exception] leaves [call_plugin]
    directly. *)
Theorem call_plugin_callback_exception (method : string) (args : list Value)
    (kwargs : dict) (cb : Dispatch.callback_fn)
    (error_callback : option Dispatch.error_callback_fn)
    (p : Dispatch.plugin) (rest : list Dispatch.plugin) (name : string)
    (f : list Value -> dict -> Dispatch.outcome) (res : Value) (e : Dispatch.exn)
    (Hid : Dispatch.pl_identifier p = Some name)
    (Hf : Dispatch.pl_attr p method = Some f)
    (Hret : f args kwargs = Dispatch.Returns res)
    (Hcb : cb name p res = Some e) :
  let run := Dispatch.call_plugin method args kwargs (Some cb) error_callback in
  let o := Dispatch.pl_obj p in
  run (p :: rest)
  = if Dispatch.exn_is_exception e then
      match error_callback with
      | None =>
          ([Dispatch.EvInvoke name o; Dispatch.EvCallback name o res;
            Dispatch.EvLogException name] ++ fst (run rest), snd (run rest))
      | Some ecb =>
          match ecb name p e with
          | None =>
              ([Dispatch.EvInvoke name o; Dispatch.EvCallback name o res;
                Dispatch.EvLogException name; Dispatch.EvErrorCallback name o e]
               ++ fst (run rest), snd (run rest))
          | Some e' =>
              ([Dispatch.EvInvoke name o; Dispatch.EvCallback name o res;
                Dispatch.EvLogException name; Dispatch.EvErrorCallback name o e],
               Some e')
          end
      end
    else ([Dispatch.EvInvoke name o; Dispatch.EvCallback name o res], Some e).
Proof.
  intros run o. unfold run. simpl.
  unfold Dispatch.call_one. rewrite Hid, Hf, Hret, Hcb.
  unfold Dispatch.handle.
  destruct (Dispatch.exn_is_exception e); simpl; auto.
  destruct error_callback as [ecb|]; [destruct (ecb name p e)|]; auto;
    now destruct (Dispatch.call_plugin method args kwargs (Some cb) _ rest).
Qed.

(** ** Numeric setters *)

Lemma setter_store_read (call_fn : nat -> Value -> Value) (root : Value)
    (key : string) (d : option dict) (gp : option Value) (path : list string)
    (v : Value) (kw : dict) :
  dict_mem kw "preprocessors" = false ->
  Store.tree_get
    (Store.store_set call_fn root (["plugins"; key] ++ path) v
       (Settings._add_setter_kwargs (Settings.init key d gp None) kw))
    (["plugins"; key] ++ path)
  = Some v.
Proof.
  intros Hkw. unfold Store.store_set, Store.preprocessor_at.
  destruct (add_setter_kwargs_lookup (Settings.init key d gp None) kw) as [_ Hp].
  rewrite Hkw in Hp. rewrite Hp, tree_get_set_same. simpl.
  rewrite String.eqb_refl. destruct path; reflexivity.
Qed.

Lemma clamp_Z_below (m z : Z) (mx : option Z) :
  (z < m)%Z -> Store.clamp_Z (Some m) mx z = m.
Proof.
  intros H. unfold Store.clamp_Z. now rewrite (proj2 (Z.ltb_lt z m) H).
Qed.

Lemma clamp_Z_above (mn : option Z) (x z : Z) :
  match mn with Some a => (a <= x)%Z | None => True end -> (x < z)%Z ->
  Store.clamp_Z mn (Some x) z = x.
Proof.
  intros Hmn H. unfold Store.clamp_Z.
  rewrite (proj2 (Z.ltb_lt x z) H).
  destruct mn as [a|]; auto.
  destruct (Z.ltb_spec z a); [lia|auto].
Qed.

Lemma clamp_Q_below (m q : Q) (mx : option Q) :
  q < m -> Store.clamp_Q (Some m) mx q = m.
Proof.
  intros H. unfold Store.clamp_Q.
  destruct (Qlt_le_dec q m) as [_|Hle]; auto.
  exfalso. apply (Qlt_not_le q m H Hle).
Qed.

Lemma clamp_Q_above (mn : option Q) (x q : Q) :
  match mn with Some a => a <= x | None => True end -> x < q ->
  Store.clamp_Q mn (Some x) q = x.
Proof.
  intros Hmn H. unfold Store.clamp_Q.
  destruct (Qlt_le_dec x q) as [_|Hle];
    [|exfalso; apply (Qlt_not_le x q H Hle)].
  destruct mn as [a|]; auto.
  destruct (Qlt_le_dec q a) as [Hlt|_]; auto.
  exfalso. apply (Qlt_not_le q x (Qlt_le_trans q a x Hlt Hmn)).
  now apply Qlt_le_weak.
Qed.

(** C8 (counterexample). With [min=10] and [max=0], the value [5] is both
    below [min] and above [max]; [set_int] stores [10], not [0]: a value
    above [max] does not always store [max]. *)
Lemma set_int_crossed_bounds :
  let stored :=
    Store.tree_get
      (Store.exec (fun _ v => v) (VDict [])
         (Settings.set_int (Settings.init "foo" None None None) ["n"] (VInt 5)
            [("min", VInt 10); ("max", VInt 0)]))
      ["plugins"; "foo"; "n"] in
  (5 < 10)%Z /\ (0 < 5)%Z /\ stored = Some (VInt 10) /\ stored <> Some (VInt 0).
Proof.
  intros stored. split; [lia|split; [lia|]].
  assert (H : stored = Some (VInt 10)) by reflexivity.
  split; [exact H|]. rewrite H. discriminate.
Qed.

(** C8 (amended). When [min <= max] (or only one of them is given), the
    numeric setters clamp: [set_int]/[set_float] of a value below [min]
    stores [min] and of a value above [max] stores [max] at the scoped
    path, with the Store as the spec describes it. *)
Theorem numeric_setters_clamp (call_fn : nat -> Value -> Value) (root : Value)
    (key : string) (d : option dict) (gp : option Value) (path : list string)
    (z : Z) (mn mx : option Z) (q : Q) (qmn qmx : option Q)
    (Hz : match mn, mx with Some a, Some b => (a <= b)%Z | _, _ => True end)
    (Hq : match qmn, qmx with Some a, Some b => a <= b | _, _ => True end) :
  let ps := Settings.init key d gp None in
  let zkw := match mn with Some a => [("min", VInt a)] | None => [] end
             ++ match mx with Some b => [("max", VInt b)] | None => [] end in
  let qkw := match qmn with Some a => [("min", VFloat a)] | None => [] end
             ++ match qmx with Some b => [("max", VFloat b)] | None => [] end in
  let zst := Store.tree_get (Store.exec call_fn root
                               (Settings.set_int ps path (VInt z) zkw))
                            (["plugins"; key] ++ path) in
  let qst := Store.tree_get (Store.exec call_fn root
                               (Settings.set_float ps path (VFloat q) qkw))
                            (["plugins"; key] ++ path) in
  (forall a, mn = Some a -> (z < a)%Z -> zst = Some (VInt a)) /\
  (forall b, mx = Some b -> (b < z)%Z -> zst = Some (VInt b)) /\
  (forall a, qmn = Some a -> q < a -> qst = Some (VFloat a)) /\
  (forall b, qmx = Some b -> b < q -> qst = Some (VFloat b)).
Proof.
  intros ps zkw qkw zst qst.
  assert (Hzb : Store.bound Store.to_int
                  (Settings._add_setter_kwargs ps zkw) "min" = mn /\
                Store.bound Store.to_int
                  (Settings._add_setter_kwargs ps zkw) "max" = mx).
  { unfold Store.bound.
    rewrite !add_setter_kwargs_lookup_other by discriminate.
    unfold zkw. destruct mn, mx; split; reflexivity. }
  assert (Hqb : Store.bound Store.to_float
                  (Settings._add_setter_kwargs ps qkw) "min" = qmn /\
                Store.bound Store.to_float
                  (Settings._add_setter_kwargs ps qkw) "max" = qmx).
  { unfold Store.bound.
    rewrite !add_setter_kwargs_lookup_other by discriminate.
    unfold qkw. destruct qmn, qmx; split; reflexivity. }
  assert (Hzm : dict_mem zkw "preprocessors" = false)
    by (unfold zkw; destruct mn, mx; reflexivity).
  assert (Hqm : dict_mem qkw "preprocessors" = false)
    by (unfold qkw; destruct qmn, qmx; reflexivity).
  unfold zst, qst, Settings.set_int, Settings.set_float, Store.exec.
  cbn [Store.to_int Store.to_float].
  destruct Hzb as [-> ->]. destruct Hqb as [-> ->].
  unfold ps, Settings._prefix_path. simpl Settings.plugin_key.
  rewrite !setter_store_read by assumption.
  split; [|split; [|split]]; intros v Hv Hlt; subst.
  - now rewrite clamp_Z_below.
  - rewrite clamp_Z_above; auto.
  - now rewrite clamp_Q_below.
  - rewrite clamp_Q_above; auto.
Qed.

(** ** Witnesses *)

Lemma call_plugin_skips_unusable_witness :
  Dispatch.call_plugin "on_event" [] [] None None
    ([Dispatch.plugin_a] ++ Dispatch.mk_plugin 9 None (fun _ => None)
                         :: [Dispatch.plugin_c])
  = Dispatch.call_plugin "on_event" [] [] None None
      ([Dispatch.plugin_a] ++ [Dispatch.plugin_c]).
Proof.
  apply call_plugin_skips_unusable. left. reflexivity.
Defined.

(** Three plugins, the second raising, with an [error_callback] that
    returns. *)
Lemma call_plugin_fault_isolation_witness :
  let run := Dispatch.call_plugin "on_event" [] [] None
               (Some Dispatch.error_callback_quiet) in
  (error_callback_returns (Some Dispatch.error_callback_quiet) ->
   snd (run ([Dispatch.plugin_a] ++ Dispatch.plugin_b :: [Dispatch.plugin_c])) = None /\
   fst (run ([Dispatch.plugin_a] ++ Dispatch.plugin_b :: [Dispatch.plugin_c]))
   = fst (run [Dispatch.plugin_a])
     ++ [Dispatch.EvInvoke "b" 2; Dispatch.EvLogException "b";
         Dispatch.EvErrorCallback "b" 2 Dispatch.boom]
     ++ fst (run [Dispatch.plugin_c]) /\
   Dispatch.invoked (fst (run [Dispatch.plugin_c]))
   = Dispatch.qualifying "on_event" [Dispatch.plugin_c]) /\
  (forall ecb x, Some Dispatch.error_callback_quiet = Some ecb ->
   snd (run [Dispatch.plugin_a]) = None ->
   ecb "b" Dispatch.plugin_b Dispatch.boom = Some x ->
   run ([Dispatch.plugin_a] ++ Dispatch.plugin_b :: [Dispatch.plugin_c])
   = (fst (run [Dispatch.plugin_a])
      ++ [Dispatch.EvInvoke "b" 2; Dispatch.EvLogException "b";
          Dispatch.EvErrorCallback "b" 2 Dispatch.boom], Some x)) /\
  (error_callback_returns (Some Dispatch.error_callback_quiet) ->
   forall p1 n1 g1 r1 p3 n3 g3 r3,
   Dispatch.pl_identifier p1 = Some n1 -> Dispatch.pl_attr p1 "on_event" = Some g1 ->
   g1 [] [] = Dispatch.Returns r1 ->
   Dispatch.pl_identifier p3 = Some n3 -> Dispatch.pl_attr p3 "on_event" = Some g3 ->
   g3 [] [] = Dispatch.Returns r3 ->
   (forall cb : Dispatch.callback_fn, None = Some cb ->
      cb n1 p1 r1 = None /\ cb n3 p3 r3 = None) ->
   snd (run [p1; Dispatch.plugin_b; p3]) = None /\
   Dispatch.invoked (fst (run [p1; Dispatch.plugin_b; p3]))
   = [(n1, Dispatch.pl_obj p1); ("b", 2%nat); (n3, Dispatch.pl_obj p3)] /\
   Dispatch.error_callback_calls (fst (run [p1; Dispatch.plugin_b; p3]))
   = [("b", 2%nat, Dispatch.boom)]).
Proof.
  apply (call_plugin_fault_isolation "on_event" [] [] None
           (Some Dispatch.error_callback_quiet) [Dispatch.plugin_a]
           [Dispatch.plugin_c] Dispatch.plugin_b "b"
           (fun _ _ => Dispatch.Raises Dispatch.boom) Dispatch.boom).
  - apply Forall_forall. intros q Hin. simpl in Hin.
    destruct Hin as [<-|[<-|[<-|[]]]]; intros g Hg; simpl in Hg;
      injection Hg as <-; split; intros *; try discriminate;
      intros Hx; injection Hx as <-; reflexivity.
  - reflexivity.
  - reflexivity.
  - reflexivity.
Defined.

Lemma call_plugin_callback_exception_witness :
  let run := Dispatch.call_plugin "on_event" [] [] (Some Dispatch.callback_raising)
               (Some Dispatch.error_callback_quiet) in
  run (Dispatch.plugin_a :: [Dispatch.plugin_c])
  = if Dispatch.exn_is_exception Dispatch.boom then
      match Some Dispatch.error_callback_quiet with
      | None =>
          ([Dispatch.EvInvoke "a" 1; Dispatch.EvCallback "a" 1 VNone;
            Dispatch.EvLogException "a"] ++ fst (run [Dispatch.plugin_c]),
           snd (run [Dispatch.plugin_c]))
      | Some ecb =>
          match ecb "a" Dispatch.plugin_a Dispatch.boom with
          | None =>
              ([Dispatch.EvInvoke "a" 1; Dispatch.EvCallback "a" 1 VNone;
                Dispatch.EvLogException "a";
                Dispatch.EvErrorCallback "a" 1 Dispatch.boom]
               ++ fst (run [Dispatch.plugin_c]), snd (run [Dispatch.plugin_c]))
          | Some e' =>
              ([Dispatch.EvInvoke "a" 1; Dispatch.EvCallback "a" 1 VNone;
                Dispatch.EvLogException "a";
                Dispatch.EvErrorCallback "a" 1 Dispatch.boom], Some e')
          end
      end
    else ([Dispatch.EvInvoke "a" 1; Dispatch.EvCallback "a" 1 VNone],
          Some Dispatch.boom).
Proof.
  apply (call_plugin_callback_exception "on_event" [] [] Dispatch.callback_raising
           (Some Dispatch.error_callback_quiet) Dispatch.plugin_a [Dispatch.plugin_c]
           "a" (fun _ _ => Dispatch.Returns VNone) VNone Dispatch.boom);
    reflexivity.
Defined.

(** [set_int(["n"], 50, min=0, max=10)] stores [10]. *)
Lemma numeric_setters_clamp_witness :
  let ps := Settings.init "foo" None None None in
  let zkw := [("min", VInt 0)] ++ [("max", VInt 10)] in
  let qkw := [("min", VFloat 0)] ++ [("max", VFloat 10)] in
  let zst := Store.tree_get (Store.exec (fun _ v => v) (VDict [])
                               (Settings.set_int ps ["n"] (VInt 50) zkw))
                            (["plugins"; "foo"] ++ ["n"]) in
  let qst := Store.tree_get (Store.exec (fun _ v => v) (VDict [])
                               (Settings.set_float ps ["n"] (VFloat 50) qkw))
                            (["plugins"; "foo"] ++ ["n"]) in
  (forall a, Some 0%Z = Some a -> (50 < a)%Z -> zst = Some (VInt a)) /\
  (forall b, Some 10%Z = Some b -> (b < 50)%Z -> zst = Some (VInt b)) /\
  (forall a, Some (0:Q) = Some a -> 50 < a -> qst = Some (VFloat a)) /\
  (forall b, Some (10:Q) = Some b -> b < 50 -> qst = Some (VFloat b)).
Proof.
  apply (numeric_setters_clamp (fun _ v => v) (VDict []) "foo" None None ["n"]
           50 (Some 0%Z) (Some 10%Z) 50 (Some 0) (Some 10)).
  - simpl. lia.
  - unfold Qle. simpl. lia.
Defined.

(** * Further properties of the embedded code *)

(** ** JobData and CurrentData *)

(** [update] with a [JobData()] whose fields are all [None] changes
    nothing. *)
Theorem JobData_update_with_empty (j : Printer.JobData) :
  Printer.update j (Printer.ArgJobData Printer.JobData_default) = j.
Proof. destruct j; reflexivity. Qed.

(** Two successive updates equal one update with the merge of the two
    arguments: [j.update(a); j.update(b)] leaves [j] as
    [a.update(b); j.update(a)] does. *)
Theorem JobData_update_compose (j a b : Printer.JobData) :
  Printer.update (Printer.update j (Printer.ArgJobData a)) (Printer.ArgJobData b)
  = Printer.update j (Printer.ArgJobData (Printer.update a (Printer.ArgJobData b))).
Proof.
  destruct j, a, b; simpl. unfold Printer.replace_if_set.
  repeat match goal with |- context [match ?x with _ => _ end] => destruct x end;
    reflexivity.
Qed.

(** ** Dispatch *)

Lemma call_one_invoked (method : string) (args : list Value) (kwargs : dict)
    (callback : option Dispatch.callback_fn)
    (error_callback : option Dispatch.error_callback_fn) (p : Dispatch.plugin) :
  Dispatch.invoked (fst (Dispatch.call_one method args kwargs callback error_callback p))
  = Dispatch.qualifying method [p].
Proof.
  unfold Dispatch.call_one, Dispatch.handle; simpl.
  destruct (Dispatch.pl_identifier p) as [n|]; auto.
  destruct (Dispatch.pl_attr p method) as [g|]; auto.
  destruct (g args kwargs) as [res|x].
  - destruct callback as [cb|]; simpl; auto.
    destruct (cb n p res) as [x|]; simpl; auto.
    destruct (Dispatch.exn_is_exception x); simpl; auto.
    destruct error_callback; simpl; auto.
  - destruct (Dispatch.exn_is_exception x); simpl; auto.
    destruct error_callback; simpl; auto.
Qed.

(** Dispatching over a concatenation dispatches over the first part and,
    unless an exception left it, then over the second part. *)
Theorem call_plugin_concat (method : string) (args : list Value) (kwargs : dict)
    (callback : option Dispatch.callback_fn)
    (error_callback : option Dispatch.error_callback_fn)
    (l1 l2 : list Dispatch.plugin) :
  let run := Dispatch.call_plugin method args kwargs callback error_callback in
  run (l1 ++ l2)
  = match run l1 with
    | (evs, Some e) => (evs, Some e)
    | (evs, None) => (evs ++ fst (run l2), snd (run l2))
    end.
Proof.
  intros run. unfold run. rewrite call_plugin_app.
  destruct (Dispatch.call_plugin method args kwargs callback error_callback l1)
    as [evs [e|]]; auto.
  now destruct (Dispatch.call_plugin method args kwargs callback error_callback l2).
Qed.

(** Whatever the plugins and callbacks do, the instances invoked are a
    prefix of the qualifying instances (those with an [_identifier] and
    the method), in order: no other instance is ever invoked, none twice,
    and only an exception leaving [call_plugin] cuts the list short. *)
Theorem call_plugin_invokes_prefix_of_qualifying (method : string)
    (args : list Value) (kwargs : dict) (callback : option Dispatch.callback_fn)
    (error_callback : option Dispatch.error_callback_fn) (l : list Dispatch.plugin) :
  let (evs, r) := Dispatch.call_plugin method args kwargs callback error_callback l in
  exists rest, Dispatch.qualifying method l = Dispatch.invoked evs ++ rest /\
               (r = None -> rest = []).
Proof.
  induction l as [|p l IH]; simpl.
  - exists []. auto.
  - pose proof (call_one_invoked method args kwargs callback error_callback p) as Hp.
    destruct (Dispatch.call_one method args kwargs callback error_callback p)
      as [evs [e|]]; simpl in Hp.
    + exists (Dispatch.qualifying method l). split; [|discriminate].
      transitivity (Dispatch.qualifying method [p] ++ Dispatch.qualifying method l).
      * simpl. destruct (Dispatch.pl_identifier p), (Dispatch.pl_attr p method); auto.
      * now rewrite Hp.
    + destruct (Dispatch.call_plugin method args kwargs callback error_callback l)
        as [evs' r'].
      destruct IH as [rest [IH1 IH2]]. exists rest. split; auto.
      rewrite invoked_app, Hp, <- app_assoc, <- IH1. simpl.
      destruct (Dispatch.pl_identifier p), (Dispatch.pl_attr p method); auto.
Qed.

(** [callback] is only ever called when one is given, and [error_callback]
    only when one is given and only with an [Exception]: an exception that
    is not an [Exception] never reaches it. *)
Theorem call_plugin_callback_events (method : string) (args : list Value)
    (kwargs : dict) (callback : option Dispatch.callback_fn)
    (error_callback : option Dispatch.error_callback_fn) (l : list Dispatch.plugin) :
  Forall (fun ev => match ev with
                    | Dispatch.EvCallback _ _ _ => callback <> None
                    | Dispatch.EvErrorCallback _ _ e =>
                        Dispatch.exn_is_exception e = true /\ error_callback <> None
                    | _ => True
                    end)
    (fst (Dispatch.call_plugin method args kwargs callback error_callback l)).
Proof.
  assert (Hh : forall n p x,
    Forall (fun ev => match ev with
                      | Dispatch.EvCallback _ _ _ => callback <> None
                      | Dispatch.EvErrorCallback _ _ e =>
                          Dispatch.exn_is_exception e = true /\ error_callback <> None
                      | _ => True
                      end) (fst (Dispatch.handle error_callback n p x))).
  { intros n p x. unfold Dispatch.handle.
    destruct (Dispatch.exn_is_exception x) eqn:Ex; simpl; auto.
    destruct error_callback; simpl; repeat constructor; auto; discriminate. }
  induction l as [|p l IH]; simpl; auto.
  assert (Hp : Forall (fun ev => match ev with
                      | Dispatch.EvCallback _ _ _ => callback <> None
                      | Dispatch.EvErrorCallback _ _ e =>
                          Dispatch.exn_is_exception e = true /\ error_callback <> None
                      | _ => True
                      end)
                (fst (Dispatch.call_one method args kwargs callback error_callback p))).
  { unfold Dispatch.call_one.
    destruct (Dispatch.pl_identifier p) as [n|]; simpl; auto.
    destruct (Dispatch.pl_attr p method) as [g|]; simpl; auto.
    destruct (g args kwargs) as [res|x].
    - destruct callback as [cb|] eqn:Ecb; simpl; repeat constructor.
      destruct (cb n p res) as [x|]; simpl; repeat constructor; try discriminate.
      specialize (Hh n p x).
      destruct (Dispatch.handle error_callback n p x); simpl in *.
      repeat constructor; auto; discriminate.
    - specialize (Hh n p x).
      destruct (Dispatch.handle error_callback n p x); simpl in *.
      constructor; auto. }
  destruct (Dispatch.call_one method args kwargs callback error_callback p)
    as [evs [e|]]; simpl in *; auto.
  destruct (Dispatch.call_plugin method args kwargs callback error_callback l)
    as [evs' r']; simpl in *.
  apply Forall_app; auto.
Qed.

(** ** PluginSettings *)

Lemma add_getter_kwargs_lookup_other (ps : Settings.PluginSettings) (kw : dict)
    (k : string) :
  k <> "defaults" -> k <> "preprocessors" ->
  dict_lookup (Settings._add_getter_kwargs ps kw) k = dict_lookup kw k.
Proof.
  intros H1 H2. unfold Settings._add_getter_kwargs.
  destruct (Settings.defaults ps); [destruct (dict_mem kw "defaults")|]; simpl;
    repeat match goal with
           | |- context [if ?b then _ else _] => destruct b
           end;
    repeat rewrite dict_lookup_set_other by assumption; auto.
Qed.

(** The keyword arguments a scoped getter or setter passes to the Store:
    ["defaults"] is the caller's if given, else the plugin's defaults
    (absent when it has none); ["preprocessors"] is the caller's if given,
    else the plugin's wrapped get resp. set preprocessors; every other
    keyword argument ([merged], [asdict], [force], [min], [max], ...) is
    passed as the caller gave it. *)
Theorem scoped_kwargs_lookup (ps : Settings.PluginSettings) (kw : dict) (k : string) :
  dict_lookup (Settings._add_getter_kwargs ps kw) k
  = (if String.eqb k "defaults" then
       if dict_mem kw "defaults" then dict_lookup kw "defaults" else Settings.defaults ps
     else if String.eqb k "preprocessors" then
       if dict_mem kw "preprocessors" then dict_lookup kw "preprocessors"
       else Some (Settings.get_preprocessors ps)
     else dict_lookup kw k) /\
  dict_lookup (Settings._add_setter_kwargs ps kw) k
  = (if String.eqb k "defaults" then
       if dict_mem kw "defaults" then dict_lookup kw "defaults" else Settings.defaults ps
     else if String.eqb k "preprocessors" then
       if dict_mem kw "preprocessors" then dict_lookup kw "preprocessors"
       else Some (Settings.set_preprocessors ps)
     else dict_lookup kw k).
Proof.
  destruct (String.eqb_spec k "defaults") as [->|Hd].
  - split; [apply add_getter_kwargs_lookup | apply add_setter_kwargs_lookup].
  - destruct (String.eqb_spec k "preprocessors") as [->|Hp].
    + split; [apply add_getter_kwargs_lookup | apply add_setter_kwargs_lookup].
    + split; [apply add_getter_kwargs_lookup_other | apply add_setter_kwargs_lookup_other];
        assumption.
Qed.

(** Adding the plugin's keyword arguments twice adds nothing more: once
    ["preprocessors"] (and ["defaults"], when the plugin has defaults) are
    present, the caller's values are kept. *)
Theorem scoped_kwargs_idempotent (ps : Settings.PluginSettings) (kw : dict) :
  Settings._add_getter_kwargs ps (Settings._add_getter_kwargs ps kw)
  = Settings._add_getter_kwargs ps kw /\
  Settings._add_setter_kwargs ps (Settings._add_setter_kwargs ps kw)
  = Settings._add_setter_kwargs ps kw.
Proof.
  assert (Hmem : forall (pre : Value) kw',
    dict_mem (if negb (dict_mem kw' "preprocessors")
              then dict_update kw' "preprocessors" pre else kw') "preprocessors" = true
    /\ forall k, dict_mem kw' k = true ->
       dict_mem (if negb (dict_mem kw' "preprocessors")
                 then dict_update kw' "preprocessors" pre else kw') k = true).
  { intros pre kw'. destruct (dict_mem kw' "preprocessors") eqn:E; simpl; auto.
    unfold dict_update. rewrite dict_mem_set. simpl. split; auto.
    intros k Hk. rewrite dict_mem_set, Hk. apply orb_true_r. }
  assert (Hdef : forall kw' (d : Value),
    dict_mem (if negb (dict_mem kw' "defaults")
              then dict_update kw' "defaults" d else kw') "defaults" = true).
  { intros kw' d. destruct (dict_mem kw' "defaults") eqn:E; simpl; auto.
    unfold dict_update. now rewrite dict_mem_set. }
  split.
  - unfold Settings._add_getter_kwargs at 1.
    set (kw1 := Settings._add_getter_kwargs ps kw).
    assert (Hp : dict_mem kw1 "preprocessors" = true).
    { unfold kw1, Settings._add_getter_kwargs. apply (proj1 (Hmem _ _)). }
    destruct (Settings.defaults ps) as [d|] eqn:Ed.
    + assert (Hd : dict_mem kw1 "defaults" = true).
      { unfold kw1, Settings._add_getter_kwargs. rewrite Ed.
        apply (proj2 (Hmem _ _)), Hdef. }
      rewrite Hd. simpl. now rewrite Hp.
    + simpl. now rewrite Hp.
  - unfold Settings._add_setter_kwargs at 1.
    set (kw1 := Settings._add_setter_kwargs ps kw).
    assert (Hp : dict_mem kw1 "preprocessors" = true).
    { unfold kw1, Settings._add_setter_kwargs. apply (proj1 (Hmem _ _)). }
    destruct (Settings.defaults ps) as [d|] eqn:Ed.
    + assert (Hd : dict_mem kw1 "defaults" = true).
      { unfold kw1, Settings._add_setter_kwargs. rewrite Ed.
        apply (proj2 (Hmem _ _)), Hdef. }
      rewrite Hd. simpl. now rewrite Hp.
    + simpl. now rewrite Hp.
Qed.

(** [get_all_data] reads the plugin's whole subtree [["plugins", key]];
    it passes [merged] and [asdict] (default [True]), [defaults] (default
    the plugin's defaults, [None] when it has none) and [preprocessors]
    (default the wrapped get preprocessors), the caller's value winning for
    each, and every other keyword argument as given. Unlike the scoped
    getters it always passes [defaults]. *)
Theorem get_all_data_call (ps : Settings.PluginSettings) (kw : dict) :
  Settings.call_path (Settings.get_all_data ps kw)
  = Some ["plugins"; Settings.plugin_key ps] /\
  exists kw', Settings.call_kwargs (Settings.get_all_data ps kw) = Some kw' /\
  forall k, dict_lookup kw' k
  = (if String.eqb k "merged" then Some (dict_get kw "merged" (VBool true))
     else if String.eqb k "asdict" then Some (dict_get kw "asdict" (VBool true))
     else if String.eqb k "defaults" then
       Some (dict_get kw "defaults"
               (match Settings.defaults ps with Some d => d | None => VNone end))
     else if String.eqb k "preprocessors" then
       Some (dict_get kw "preprocessors" (Settings.get_preprocessors ps))
     else dict_lookup kw k).
Proof.
  split; [reflexivity|]. eexists. split; [reflexivity|].
  intros k. unfold dict_update.
  destruct (String.eqb_spec k "merged") as [->|H1].
  { rewrite !dict_lookup_set_other by discriminate. apply dict_lookup_set_same. }
  destruct (String.eqb_spec k "asdict") as [->|H2].
  { rewrite !dict_lookup_set_other by discriminate. apply dict_lookup_set_same. }
  destruct (String.eqb_spec k "defaults") as [->|H3].
  { rewrite !dict_lookup_set_other by discriminate. apply dict_lookup_set_same. }
  destruct (String.eqb_spec k "preprocessors") as [->|H4].
  { apply dict_lookup_set_same. }
  rewrite !dict_lookup_set_other by assumption. reflexivity.
Qed.

Lemma string_append_assoc (a b c : string) :
  (a ++ (b ++ c))%string = ((a ++ b) ++ c)%string.
Proof.
  induction a as [|x a IH]; simpl; auto. now rewrite IH.
Qed.

(** The log file of a plugin is [plugin_<key>.log], or
    [plugin_<key>_<postfix>.log] with a postfix, directly inside the logs
    folder: the folder is never dropped by [os.path.join], since the file
    name is never absolute. *)
Theorem plugin_logfile_path_in_logs (ps : Settings.PluginSettings) (logs : string)
    (postfix : option string) :
  let filename :=
    (match postfix with
     | Some p => ("plugin_" ++ Settings.plugin_key ps) ++ "_" ++ p
     | None => "plugin_" ++ Settings.plugin_key ps
     end ++ ".log")%string in
  exists sep, (sep = "" \/ sep = "/") /\
    Settings.get_plugin_logfile_path ps logs postfix = (logs ++ sep ++ filename)%string.
Proof.
  intros filename.
  unfold Settings.get_plugin_logfile_path, os_path_join. fold filename.
  assert (Hpre : String.prefix "/" filename = false).
  { unfold filename. destruct postfix; reflexivity. }
  rewrite Hpre.
  destruct (String.eqb_spec logs "") as [->|_].
  - exists "". split; auto.
  - destruct (String.eqb (substring (String.length logs - 1) 1 logs) "/").
    + exists "". split; auto.
    + exists "/". split; auto.
Qed.

(** A postfix is not told apart from a longer plugin key: the log file of
    plugin [k] with postfix [p] is the log file of plugin [k_p] without a
    postfix. *)
Theorem plugin_logfile_path_postfix_collision (ps1 ps2 : Settings.PluginSettings)
    (logs p : string)
    (Hkey : Settings.plugin_key ps2 = (Settings.plugin_key ps1 ++ "_" ++ p)%string) :
  Settings.get_plugin_logfile_path ps1 logs (Some p)
  = Settings.get_plugin_logfile_path ps2 logs None.
Proof.
  unfold Settings.get_plugin_logfile_path. rewrite Hkey.
  now rewrite <- !string_append_assoc.
Qed.

(** ** Factories and the singleton *)


Lemma run_state_initialized (pm : Registry.PluginManager)
    (calls : list (bool * Registry.pm_args)) :
  fst (Registry.run (Some pm) calls) = Some pm.
Proof.
  induction calls as [|[init a] calls IH]; simpl; auto.
  destruct init; simpl; destruct (Registry.run (Some pm) calls); simpl in *; auto.
Qed.

Lemma run_state_first_init (calls : list (bool * Registry.pm_args)) :
  fst (Registry.run None calls)
  = match find (fun c : bool * Registry.pm_args => fst c) calls with
    | Some (_, a) => Some (Registry.construct a)
    | None => None
    end.
Proof.
  induction calls as [|[init a] calls IH]; simpl; auto.
  destruct init; simpl.
  - pose proof (run_state_initialized (Registry.construct a) calls) as H.
    destruct (Registry.run (Some (Registry.construct a)) calls); simpl in *; auto.
  - destruct (Registry.run None calls); simpl in *; auto.
Qed.

(** After any sequence of [plugin_manager] calls from the uninitialized
    state, [call_plugin] without an explicit [manager] raises the
    [ValueError] "Plugin Manager not initialized yet", invoking nothing, as
    long as no call had [init=True]; otherwise it dispatches over the
    implementations, for the requested types (a single type not given as a
    list is wrapped in one), of the manager built by the first call with
    [init=True], with [args] and [kwargs] defaulting to empty. *)
Theorem call_plugin_entry_after_calls
    (get_implementations :
       Registry.PluginManager -> list Value -> option string -> list Dispatch.plugin)
    (calls : list (bool * Registry.pm_args))
    (types : Value) (method : string) (args : option (list Value))
    (kwargs : option dict) (callback : option Dispatch.callback_fn)
    (error_callback : option Dispatch.error_callback_fn)
    (sorting_context : option string) :
  Factories.call_plugin_entry get_implementations (fst (Registry.run None calls))
    types method args kwargs callback error_callback sorting_context None
  = match find (fun c : bool * Registry.pm_args => fst c) calls with
    | None => Err (ValueError "Plugin Manager not initialized yet")
    | Some (_, a) =>
        Ok (Dispatch.call_plugin method
              (match args with None => [] | Some a => a end)
              (match kwargs with None => [] | Some k => k end)
              callback error_callback
              (get_implementations (Registry.construct a)
                 (match types with VList l => l | t => [t] end) sorting_context))
    end.
Proof.
  rewrite run_state_first_init.
  destruct (find (fun c : bool * Registry.pm_args => fst c) calls) as [[i a]|];
    reflexivity.
Qed.

Lemma run_initialized (pm : Registry.PluginManager) (calls : list (bool * Registry.pm_args)) :
  Forall (fun r => match r with Ok pm' => pm' = pm | Err _ => True end)
    (snd (Registry.run (Some pm) calls)).
Proof.
  induction calls as [|[init a] calls IH]; simpl; auto.
  destruct init; simpl;
    destruct (Registry.run (Some pm) calls) as [st rs]; simpl in *; auto.
Qed.

(** Over any sequence of [plugin_manager] calls from the uninitialized
    state, every call that returns returns one and the same
    [PluginManager], whose logging prefix is ["octoprint.plugins."] and
    whose validator list ends with [_validate_plugin]. *)
Theorem plugin_manager_single_instance (calls : list (bool * Registry.pm_args)) :
  exists pm,
    Registry.pm_logging_prefix pm = "octoprint.plugins." /\
    (exists vs, Registry.pm_plugin_validators pm = vs ++ [Registry.validate_plugin]) /\
    Forall (fun r => match r with Ok pm' => pm' = pm | Err _ => True end)
      (snd (Registry.run None calls)).
Proof.
  assert (Hgood : forall a,
    Registry.pm_logging_prefix (Registry.construct a) = "octoprint.plugins." /\
    exists vs, Registry.pm_plugin_validators (Registry.construct a)
               = vs ++ [Registry.validate_plugin]).
  { intros a. split; [reflexivity|]. simpl.
    destruct (Registry.plugin_validators a) as [vs|]; [exists vs | exists []]; auto. }
  induction calls as [|[init a] calls IH].
  - destruct (Hgood Factories.no_pm_args) as [H1 H2].
    exists (Registry.construct Factories.no_pm_args). auto.
  - destruct init; simpl.
    + destruct (Hgood a) as [H1 H2]. exists (Registry.construct a).
      split; [|split]; auto.
      pose proof (run_initialized (Registry.construct a) calls) as Hr.
      destruct (Registry.run (Some (Registry.construct a)) calls); simpl in *.
      constructor; auto.
    + destruct IH as [pm [H1 [H2 H3]]]. exists pm. split; [|split]; auto.
      destruct (Registry.run None calls); simpl in *. constructor; auto.
Qed.

Lemma plugin_logfile_path_postfix_collision_witness :
  Settings.get_plugin_logfile_path (Settings.init "a" None None None) "/logs" (Some "b")
  = Settings.get_plugin_logfile_path (Settings.init "a_b" None None None) "/logs" None.
Proof.
  apply plugin_logfile_path_postfix_collision. reflexivity.
Defined.
